(** * AutoScraper workflow: Wind fetch, Excel population, range capture, mail

    A shallow embedding of [autoscraper_workflow.py].  The program is a
    sequence of calls into four outside systems (the Wind terminal, the
    workbook files on disk, the Excel automation host and the SMTP server)
    and every property of interest is about which calls are made, in which
    order, and what is left behind when one of them raises.  The embedding
    is therefore a state-and-exception monad over a [world] that records the
    disk, the mutable list objects, the log and the trace of outside calls;
    the outside systems themselves are an arbitrary deterministic
    environment that answers each call from the history so far. *)

From stdpp Require Import gmap strings list fin_maps pretty sorting.
From Stdlib Require Import ZArith Ascii.


(** ** Data carried through the pipeline *)

(** One observation of a series.  The program never looks inside the
    values it moves around. *)
Inductive datum :=
  | DNum (z : Z)
  | DText (s : string).

(** What a spreadsheet cell holds.  [sheet[cell] = payload[key]] stores the
    whole list object in the anchor cell. *)
Inductive cell_value :=
  | Scalar (d : datum)
  | Series (l : list datum).

(** A sheet maps cell addresses to values, a workbook maps sheet names to
    sheets. *)
Abbreviation sheet := (gmap string cell_value).
Abbreviation workbook := (gmap string (gmap string cell_value)).

(** The content of a file on disk: a workbook, or a picture exported from
    a range of a sheet of a workbook. *)
Inductive file :=
  | WorkbookFile (wb : workbook)
  | PictureFile (book sheet_name range_address : string).

(** ** Configuration models *)

Record DataSpec := {
  identifier : string;
  fields : list string;
  start : string;
  end_ : string;
  frequency : string;
  options : option string;
}.

(** [mapping] lists the items of the Python dict in insertion order, the
    order in which [populate] visits them. *)
Record CellMapping := {
  cm_workbook_path : string;
  cm_sheet_name : string;
  mapping : list (string * string);
}.

Record ScreenshotSpec := {
  ss_workbook_path : string;
  ss_sheet_name : string;
  range_address : string;
  output_path : string;
}.

(** [attachments] is a reference to a list object in the store: the
    orchestrator extends that list in place. *)
Record EmailSpec := {
  smtp_host : string;
  smtp_port : Z;
  username : string;
  password : string;
  recipients : list string;
  cc : list string;
  bcc : list string;
  subject : string;
  body : string;
  attachments : nat;
}.

(** The message handed to the mail transport. *)
Record EmailMessage := {
  msg_subject : string;
  msg_from : string;
  msg_to : string;
  msg_cc : option string;
  msg_bcc : option string;
  msg_content : string;
  msg_parts : list (file * string);
}.

(** ** Exceptions *)

Inductive exn :=
  | RuntimeError (msg : string)
  | IndexError
  | KeyError (key : string)
  | AttributeError
  | FileNotFoundError (path : string)
  | InvalidFileException (path : string)
  | ComError (hresult : Z)
  | SMTPAuthenticationError (code : Z)
  | SMTPException (code : Z).


(** ** Calls that leave the program *)

(** The answer of the terminal to a [wsd] request. *)
Record WindData := {
  ErrorCode : Z;
  Data : list (list datum);
  Times : list datum;
}.

(** Every call into an outside system, with its arguments.  A property
    read that only serves the method call next to it ([excel.Workbooks],
    [chart.Chart]) is part of that call; the property put
    [excel.Visible = False] is a call of its own.  [MkdirParents path]
    creates the parent directory of [path]. *)
Inductive call :=
  | WindStart
  | WindStop
  | WindWsd (codes fields_ begin_time end_time opts : string)
  | LoadWorkbook (path : string)
  | SaveWorkbook (path : string)
  | MkdirParents (path : string)
  | ReadBytes (path : string)
  | ComDispatch (prog_id : string)
  | ComSetVisible (visible : bool)
  | ComWorkbooksOpen (path : string)
  | ComWorksheets (name : string)
  | ComRange (address : string)
  | ComCopyPicture
  | ComChartObjects
  | ComAdd (left top width height : Z)
  | ComPaste
  | ComExport (path : string)
  | ComDelete
  | ComClose (save_changes : Z)
  | ComQuit
  | SmtpConnect (host : string) (port : Z)
  | SmtpStarttls
  | SmtpLogin (user pass : string)
  | SmtpSendMessage (m : EmailMessage)
  | SmtpQuit.

(** What a call gives back. *)
Inductive retval :=
  | NoValue
  | Flag (b : bool)
  | Response (r : WindData).

Inductive reply :=
  | Returns (v : retval)
  | Raises (e : exn).

(** Python truthiness of a returned object. *)
Definition truthy (v : retval) : bool :=
  match v with
  | NoValue => false
  | Flag b => b
  | Response _ => true
  end.

(** The optional third-party modules the file imports under [try]. *)
Inductive module := WindPy | openpyxl | win32com | smtplib.

(** ** The world *)

Inductive level := INFO | WARNING.

Inductive log_arg :=
  | LStr (s : string)
  | LStrs (l : list string).

Record log_record := {
  lr_level : level;
  lr_msg : string;
  lr_args : list log_arg;
}.

(** [disk] holds the files, [lists] the mutable list objects, [trace] the
    outside calls made so far (oldest first), [logs] the log records
    (oldest first).  [outside] is the environment: it answers a call given
    the calls made before it.  [imported] tells which optional modules were
    found at import time.  The last two never change. *)
Record world := World {
  disk : gmap string file;
  lists : gmap nat (list string);
  trace : list call;
  logs : list log_record;
  outside : list call -> call -> reply;
  imported : module -> bool;
}.

Definition set_disk (d : gmap string file) (w : world) : world :=
  World d (lists w) (trace w) (logs w) (outside w) (imported w).
Definition set_lists (l : gmap nat (list string)) (w : world) : world :=
  World (disk w) l (trace w) (logs w) (outside w) (imported w).
Definition set_trace (t : list call) (w : world) : world :=
  World (disk w) (lists w) t (logs w) (outside w) (imported w).
Definition set_logs (l : list log_record) (w : world) : world :=
  World (disk w) (lists w) (trace w) l (outside w) (imported w).

(** ** The monad of the program *)

Inductive outcome (A : Type) :=
  | Ok (a : A)
  | Raise (e : exn).
Arguments Ok {A} a.
Arguments Raise {A} e.

Definition M (A : Type) : Type := world -> outcome A * world.

Definition ret {A} (a : A) : M A := fun w => (Ok a, w).

Definition raise {A} (e : exn) : M A := fun w => (Raise e, w).

Definition bind {A B} (m : M A) (k : A -> M B) : M B := fun w =>
  match m w with
  | (Ok a, w1) => k a w1
  | (Raise e, w1) => (Raise e, w1)
  end.

Notation "x <- m ;; k" := (bind m (fun x => k))
  (at level 100, m at next level, right associativity).
Notation "m ;; k" := (bind m (fun _ => k))
  (at level 100, right associativity).

(** [try: body finally: fin].  The final block runs on both exits of the
    body; if it raises, its exception is the one that leaves. *)
Definition try_finally {A} (body : M A) (fin : M unit) : M A := fun w =>
  match body w with
  | (r, w1) =>
      match fin w1 with
      | (Ok _, w2) => (r, w2)
      | (Raise e, w2) => (Raise e, w2)
      end
  end.

(** [with enter as x: body], for a context manager whose [__exit__]
    returns [None] (it never swallows the exception of the body). *)
Definition with_ {A B} (enter : M B) (exit_ : M unit) (body : B -> M A) : M A :=
  x <- enter ;; try_finally (body x) exit_.

Definition lift {A} (r : outcome A) : M A := fun w => (r, w).

(** A call into an outside system: it is appended to the trace and the
    environment decides what it gives back. *)
Definition extern (c : call) : M retval := fun w =>
  match outside w (trace w) c with
  | Returns v => (Ok v, set_trace (trace w ++ [c]) w)
  | Raises e => (Raise e, set_trace (trace w ++ [c]) w)
  end.

(** A call answered by the model of the disk rather than by the
    environment; it only leaves its mark in the trace. *)
Definition note (c : call) : M unit := fun w =>
  (Ok tt, set_trace (trace w ++ [c]) w).

Definition logging (l : level) (msg : string) (args : list log_arg) : M unit :=
  fun w => (Ok tt, set_logs (logs w ++ [Build_log_record l msg args]) w).

Definition require_module (m : module) (msg : string) : M unit := fun w =>
  if imported w m then (Ok tt, w) else (Raise (RuntimeError msg), w).

(** ** Wind data access *)

Inductive WindDataFetcher := MkWindDataFetcher.

Definition WindDataFetcher_init : M WindDataFetcher :=
  require_module WindPy
    "WindPy is not available. Install WindPy and run this on a machine with Wind Financial Terminal." ;;
  ret MkWindDataFetcher.

Definition WindDataFetcher_enter (self : WindDataFetcher) : M WindDataFetcher :=
  logging INFO "Logging into Wind..." [] ;;
  extern WindStart ;;
  ret self.

Definition WindDataFetcher_exit (self : WindDataFetcher) : M unit :=
  logging INFO "Logging out of Wind." [] ;;
  extern WindStop ;;
  ret tt.

Fixpoint enumerate_from {A} (i : nat) (l : list A) : list (nat * A) :=
  match l with
  | [] => []
  | x :: l' => (i, x) :: enumerate_from (S i) l'
  end.

Definition enumerate {A} (l : list A) : list (nat * A) := enumerate_from 0 l.

(** The body of [for idx, field in enumerate(spec.fields)]:
    [payload[field] = response.Data[idx]], where indexing past the end of
    [Data] raises. *)
Fixpoint fill_payload (data : list (list datum)) (items : list (nat * string))
    (payload : gmap string (list datum)) : outcome (gmap string (list datum)) :=
  match items with
  | [] => Ok payload
  | (idx, field) :: rest =>
      match data !! idx with
      | Some row => fill_payload data rest (<[field := row]> payload)
      | None => Raise IndexError
      end
  end.

(** [spec.options or ''] *)
Definition or_empty (o : option string) : string :=
  match o with
  | Some s => s
  | None => ""
  end.

Definition wsd_call (spec : DataSpec) : call :=
  WindWsd (identifier spec) (String.concat "," (fields spec))
          (start spec) (end_ spec)
          ("Period=" +:+ frequency spec +:+ ";" +:+ or_empty (options spec)).

(** An empty (or absent) [Times] is falsy. *)
Definition has_times (r : WindData) : bool :=
  match Times r with
  | [] => false
  | _ :: _ => true
  end.

Definition fetch (self : WindDataFetcher) (spec : DataSpec) : M (gmap string (list datum)) :=
  logging INFO "Fetching Wind data: %s %s %s-%s"
    [LStr (identifier spec); LStrs (fields spec); LStr (start spec); LStr (end_ spec)] ;;
  v <- extern (wsd_call spec) ;;
  match v with
  | Response response =>
      if decide (ErrorCode response ≠ 0%Z) then
        raise (RuntimeError ("Wind request failed: " +:+ pretty (ErrorCode response)))
      else
        payload <- lift (fill_payload (Data response) (enumerate (fields spec)) ∅) ;;
        if has_times response then ret (<["times" := Times response]> payload)
        else ret payload
  | _ => raise AttributeError
  end.

(** ** Excel helpers *)

Inductive ExcelPopulator := MkExcelPopulator.

Definition ExcelPopulator_init : M ExcelPopulator :=
  require_module openpyxl "openpyxl is required for Excel writing." ;;
  ret MkExcelPopulator.

(** [load_workbook(path)]: the workbook stored at [path]. *)
Definition load_workbook (path : string) : M workbook := fun w =>
  match disk w !! path with
  | Some (WorkbookFile wb) => (Ok wb, set_trace (trace w ++ [LoadWorkbook path]) w)
  | Some (PictureFile _ _ _) =>
      (Raise (InvalidFileException path), set_trace (trace w ++ [LoadWorkbook path]) w)
  | None => (Raise (FileNotFoundError path), set_trace (trace w ++ [LoadWorkbook path]) w)
  end.

(** [wb[name]] *)
Definition get_sheet (wb : workbook) (name : string) : M sheet :=
  match wb !! name with
  | Some s => ret s
  | None => raise (KeyError name)
  end.

(** [wb.save(path)]: the file at [path] now holds the workbook. *)
Definition save_workbook (wb : workbook) (path : string) : M unit := fun w =>
  (Ok tt, set_trace (trace w ++ [SaveWorkbook path]) (set_disk (<[path := WorkbookFile wb]> (disk w)) w)).

(** The loop [for key, cell in spec.mapping.items()] over the sheet that
    is being filled.  [sheet[cell] = payload[key]] is the assignment of the
    list to the cell at that address; addresses are compared as written. *)
Fixpoint populate_loop (items : list (string * string)) (payload : gmap string (list datum))
    (sh : sheet) : M sheet :=
  match items with
  | [] => ret sh
  | (key, cell) :: rest =>
      match payload !! key with
      | None =>
          logging WARNING "Payload does not include key '%s'" [LStr key] ;;
          populate_loop rest payload sh
      | Some values =>
          populate_loop rest payload (<[cell := Series values]> sh)
      end
  end.

Definition populate (self : ExcelPopulator) (spec : CellMapping)
    (payload : gmap string (list datum)) : M string :=
  let workbook_path := cm_workbook_path spec in
  logging INFO "Populating Excel workbook: %s" [LStr workbook_path] ;;
  wb <- load_workbook workbook_path ;;
  sh <- get_sheet wb (cm_sheet_name spec) ;;
  sh' <- populate_loop (mapping spec) payload sh ;;
  save_workbook (<[cm_sheet_name spec := sh']> wb) workbook_path ;;
  ret workbook_path.

Inductive ExcelScreenshotter := MkExcelScreenshotter.

Definition ExcelScreenshotter_init : M ExcelScreenshotter :=
  require_module win32com "pywin32 is required for Excel screenshots." ;;
  ret MkExcelScreenshotter.

(** Paths are kept in absolute, normalised form, on which
    [Path.resolve] does nothing. *)
Definition resolve (path : string) : string := path.

(** [chart.Chart.Export(path)]: when the host reports success the picture
    of the copied range is on disk at [path]. *)
Definition export (spec : ScreenshotSpec) (path : string) : M retval :=
  v <- extern (ComExport path) ;;
  if truthy v then
    fun w => (Ok v, set_disk (<[path := PictureFile (resolve (ss_workbook_path spec))
                                          (ss_sheet_name spec) (range_address spec)]> (disk w)) w)
  else ret v.

(** The block under [try] in [capture]. *)
Definition capture_protected (spec : ScreenshotSpec) (workbook_path output_path : string) : M unit :=
  extern (ComWorkbooksOpen workbook_path) ;;
  extern (ComWorksheets (ss_sheet_name spec)) ;;
  extern (ComRange (range_address spec)) ;;
  extern ComCopyPicture ;;
  extern (ComWorksheets (ss_sheet_name spec)) ;;
  extern ComChartObjects ;;
  extern (ComAdd 0 0 500 300) ;;
  extern ComPaste ;;
  exported <- export spec output_path ;;
  (if negb (truthy exported) then
     raise (RuntimeError ("Excel 截图导出失败: " +:+ output_path))
   else ret tt) ;;
  extern ComDelete ;;
  extern (ComClose 0) ;;
  ret tt.

Definition capture (self : ExcelScreenshotter) (spec : ScreenshotSpec) : M string :=
  let workbook_path := resolve (ss_workbook_path spec) in
  let output_path := resolve (output_path spec) in
  note (MkdirParents output_path) ;;
  logging INFO "Capturing Excel range %s:%s from %s"
    [LStr (ss_sheet_name spec); LStr (range_address spec); LStr workbook_path] ;;
  extern (ComDispatch "Excel.Application") ;;
  extern (ComSetVisible false) ;;
  try_finally (capture_protected spec workbook_path output_path)
              (extern ComQuit ;; ret tt) ;;
  ret output_path.

(** ** Email helper *)

Record EmailSender := { es_spec : EmailSpec }.

Definition EmailSender_init (spec : EmailSpec) : M EmailSender :=
  require_module smtplib "smtplib/email are required." ;;
  ret {| es_spec := spec |}.

(** The list object behind a reference. *)
Definition deref (l : nat) : M (list string) := fun w => (Ok (lists w !!! l), w).

(** [xs.extend(more)], in place. *)
Definition extend (l : nat) (more : list string) : M unit := fun w =>
  (Ok tt, set_lists (<[l := (lists w !!! l) ++ more]> (lists w)) w).

(** [attachment.read_bytes()] *)
Definition read_bytes (path : string) : M file := fun w =>
  match disk w !! path with
  | Some f => (Ok f, set_trace (trace w ++ [ReadBytes path]) w)
  | None => (Raise (FileNotFoundError path), set_trace (trace w ++ [ReadBytes path]) w)
  end.

(** [path.name]: what follows the last separator. *)
Fixpoint path_name_go (s acc : string) : string :=
  match s with
  | EmptyString => acc
  | String c s' =>
      if decide (c = "/"%char ∨ c = "\"%char) then path_name_go s' ""
      else path_name_go s' (acc +:+ String c "")
  end.

Definition path_name (path : string) : string := path_name_go path "".

(** [", ".join(xs)] under [if xs:] *)
Definition joined_if_any (xs : list string) : option string :=
  match xs with
  | [] => None
  | _ :: _ => Some (String.concat ", " xs)
  end.

(** The loop [for attachment in self.spec.attachments]. *)
Fixpoint attach_all (paths : list string) (parts : list (file * string)) : M (list (file * string)) :=
  match paths with
  | [] => ret parts
  | attachment :: rest =>
      data <- read_bytes attachment ;;
      attach_all rest (parts ++ [(data, path_name attachment)])
  end.

Definition send (self : EmailSender) : M unit :=
  let spec := es_spec self in
  logging INFO "Sending email to %s" [LStrs (recipients spec)] ;;
  paths <- deref (attachments spec) ;;
  parts <- attach_all paths [] ;;
  let message :=
    {| msg_subject := subject spec;
       msg_from := username spec;
       msg_to := String.concat ", " (recipients spec);
       msg_cc := joined_if_any (cc spec);
       msg_bcc := joined_if_any (bcc spec);
       msg_content := body spec;
       msg_parts := parts |} in
  with_ (extern (SmtpConnect (smtp_host spec) (smtp_port spec)))
        (extern SmtpQuit ;; ret tt)
        (fun client =>
           extern SmtpStarttls ;;
           extern (SmtpLogin (username spec) (password spec)) ;;
           extern (SmtpSendMessage message) ;;
           ret tt).

(** ** Workflow driver *)

Record Workflow := {
  data_fetcher : WindDataFetcher;
  populator : ExcelPopulator;
  screenshotter : ExcelScreenshotter;
}.

Definition run (self : Workflow) (data_spec : DataSpec) (cell_mapping : CellMapping)
    (screenshot_spec : ScreenshotSpec) (email_spec : EmailSpec) : M unit :=
  payload <- with_ (WindDataFetcher_enter (data_fetcher self))
                   (WindDataFetcher_exit (data_fetcher self))
                   (fun fetcher => fetch fetcher data_spec) ;;
  workbook_path <- populate (populator self) cell_mapping payload ;;
  screenshot_path <- capture (screenshotter self) screenshot_spec ;;
  extend (attachments email_spec) [workbook_path; screenshot_path] ;;
  sender <- EmailSender_init email_spec ;;
  send sender.

(** ** Example usage *)

(** A new list object: a reference that the store does not use yet. *)
Definition new_list (items : list string) : M nat := fun w =>
  let l := fresh (dom (lists w)) in
  (Ok l, set_lists (<[l := items]> (lists w)) w).

(** [run_workflow_example()]: the configuration records are built first
    (the [EmailSpec] gets a list of its own from [default_factory]), then
    the three helpers are constructed in the order of the keyword
    arguments, then the workflow runs. *)
Definition run_workflow_example : M unit :=
  let data_spec :=
    {| identifier := "000001.SZ"; fields := ["close"; "open"];
       start := "2024-01-01"; end_ := "2024-03-31"; frequency := "D"; options := None |} in
  let cell_mapping :=
    {| cm_workbook_path := "report.xlsx"; cm_sheet_name := "Sheet1";
       mapping := [("close", "B2"); ("open", "B3")] |} in
  let screenshot_spec :=
    {| ss_workbook_path := cm_workbook_path cell_mapping; ss_sheet_name := "Sheet1";
       range_address := "A1:F20"; output_path := "report.png" |} in
  own_list <- new_list [] ;;
  let email_spec :=
    {| smtp_host := "smtp.example.com"; smtp_port := 587;
       username := "bot@example.com"; password := "password";
       recipients := ["recipient@example.com"]; cc := []; bcc := [];
       subject := "Daily Wind Report"; body := "See attached Excel and screenshot.";
       attachments := own_list |} in
  fetcher <- WindDataFetcher_init ;;
  filler <- ExcelPopulator_init ;;
  shooter <- ExcelScreenshotter_init ;;
  let workflow :=
    {| data_fetcher := fetcher; populator := filler; screenshotter := shooter |} in
  run workflow data_spec cell_mapping screenshot_spec email_spec.

(** ** The demo script [demo_test_run.py] *)






(** The module constants of the demo: where the picture goes, and the
    account, its password and the recipients of the mail. *)
Record demo_constants := {
  SCREENSHOT_PATH : string;
  GMAIL_ACCOUNT : string;
  GMAIL_APP_PASSWORD : string;
  RECIPIENTS : list string;
}.

Definition capture_demo_screenshot (k : demo_constants) (workbook_path : string) : M string :=
  shooter <- ExcelScreenshotter_init ;;
  let spec :=
    {| ss_workbook_path := workbook_path; ss_sheet_name := "Sheet1";
       range_address := "A1:B5"; output_path := SCREENSHOT_PATH k |} in
  capture shooter spec.

Definition gmail_spec (k : demo_constants) (own_list : nat) : EmailSpec :=
  {| smtp_host := "smtp.gmail.com"; smtp_port := 587;
     username := GMAIL_ACCOUNT k; password := GMAIL_APP_PASSWORD k;
     recipients := RECIPIENTS k; cc := []; bcc := [];
     subject := "Demo Excel 报告";
     body := "附件包含测试 Excel 及截图：Sheet1!A1=100, Sheet2!A2=300。";
     attachments := own_list |}.

Definition send_via_gmail (k : demo_constants)
    (excel_attachment screenshot_attachment : string) : M unit :=
  own_list <- new_list [excel_attachment; screenshot_attachment] ;;
  sender <- EmailSender_init (gmail_spec k own_list) ;;
  send sender.

(** ** Vocabulary of the statements *)

(** What a computation gives back in a world, and the world it leaves. *)
Definition result_of {A} (m : M A) (w : world) : outcome A := (m w).1.
Definition world_after {A} (m : M A) (w : world) : world := (m w).2.

(** The record [populate] logs for a key the payload lacks. *)
Definition warning_for (key : string) : log_record :=
  Build_log_record WARNING "Payload does not include key '%s'" [LStr key].

(** The keys of the mapping items the payload lacks, in mapping order. *)
Definition missing_keys (items : list (string * string))
    (payload : gmap string (list datum)) : list string :=
  (filter (fun kc => payload !! kc.1 = None) items).*1.

(** The mapping items whose key the payload has. *)
Definition present_items (items : list (string * string))
    (payload : gmap string (list datum)) : list (string * string) :=
  filter (fun kc => is_Some (payload !! kc.1)) items.

(** The sheet [populate_loop] hands back, without the logging. *)
Fixpoint written (items : list (string * string)) (payload : gmap string (list datum))
    (sh : sheet) : sheet :=
  match items with
  | [] => sh
  | (key, cell) :: rest =>
      match payload !! key with
      | None => written rest payload sh
      | Some values => written rest payload (<[cell := Series values]> sh)
      end
  end.


(** The value of a cell of a sheet of a workbook. *)
Definition cell_at (wb : workbook) (name address : string) : option cell_value :=
  wb !! name ≫= fun sh => sh !! address.

(** The workbook stored at a path, if there is one. *)
Definition workbook_at (d : gmap string file) (path : string) : option workbook :=
  match d !! path with
  | Some (WorkbookFile wb) => Some wb
  | _ => None
  end.

Definition populate_info (spec : CellMapping) : log_record :=
  Build_log_record INFO "Populating Excel workbook: %s" [LStr (cm_workbook_path spec)].




Definition is_read (c : call) : Prop :=
  match c with
  | ReadBytes _ => True
  | _ => False
  end.

Definition is_smtp (c : call) : Prop :=
  match c with
  | SmtpConnect _ _ | SmtpStarttls | SmtpLogin _ _ | SmtpSendMessage _ | SmtpQuit => True
  | _ => False
  end.

Definition is_mail (c : call) : Prop := is_read c \/ is_smtp c.

(** [moves P D w w']: from [w] to [w'] only calls in [P] were made, only
    files at paths in [D] may differ, and the list objects and the imports
    are the same. *)
Definition moves (P : call -> Prop) (D : string -> Prop) (w w' : world) : Prop :=
  (exists t, trace w' = trace w ++ t /\ Forall P t)
  /\ (forall path, ~ D path -> disk w' !! path = disk w !! path)
  /\ lists w' = lists w
  /\ imported w' = imported w.

(** Where an exception comes from: the program made it itself ([Own]), or
    an outside call raised it. *)
Definition blame (Own : exn -> Prop) (w : world) (e : exn) : Prop :=
  Own e \/ exists history c, outside w history c = Raises e.

(** [safe I Own m]: running [m] relates the worlds by [I], leaves the
    environment as it is, and raises only what [blame] accounts for. *)
Definition safe {A} (I : relation world) (Own : exn -> Prop) (m : M A) : Prop :=
  forall w, I w (m w).2 /\ outside (m w).2 = outside w
            /\ forall e, (m w).1 = Raise e -> blame Own w e.




Definition made_by_send (e : exn) : Prop :=
  e = RuntimeError "smtplib/email are required." \/ exists path, e = FileNotFoundError path.

(** The stages of [run] that are not a method of their own. *)
Definition fetch_stage (self : Workflow) (data_spec : DataSpec) : M (gmap string (list datum)) :=
  with_ (WindDataFetcher_enter (data_fetcher self))
        (WindDataFetcher_exit (data_fetcher self))
        (fun fetcher => fetch fetcher data_spec).

Definition send_stage (email_spec : EmailSpec) : M unit :=
  sender <- EmailSender_init email_spec ;; send sender.

(** The calls of the block under [try] in [capture], in program order. *)
Definition protected_calls (spec : ScreenshotSpec) : list call :=
  [ComWorkbooksOpen (resolve (ss_workbook_path spec));
   ComWorksheets (ss_sheet_name spec);
   ComRange (range_address spec);
   ComCopyPicture;
   ComWorksheets (ss_sheet_name spec);
   ComChartObjects;
   ComAdd 0 0 500 300;
   ComPaste;
   ComExport (resolve (output_path spec));
   ComDelete;
   ComClose 0].

(** The calls [capture] makes before it enters the [try]. *)
Definition launch_calls (spec : ScreenshotSpec) : list call :=
  [MkdirParents (resolve (output_path spec));
   ComDispatch "Excel.Application";
   ComSetVisible false].

(** The picture a successful export leaves on disk. *)
Definition picture_of (spec : ScreenshotSpec) : file :=
  PictureFile (resolve (ss_workbook_path spec)) (ss_sheet_name spec) (range_address spec).

(** The message [send] builds for a spec, given the parts it attached. *)
Definition message_of (spec : EmailSpec) (parts : list (file * string)) : EmailMessage :=
  {| msg_subject := subject spec;
     msg_from := username spec;
     msg_to := String.concat ", " (recipients spec);
     msg_cc := joined_if_any (cc spec);
     msg_bcc := joined_if_any (bcc spec);
     msg_content := body spec;
     msg_parts := parts |}.

(** The SMTP calls of a session in which nothing fails. *)
Definition session_calls (spec : EmailSpec) (m : EmailMessage) : list call :=
  [SmtpConnect (smtp_host spec) (smtp_port spec);
   SmtpStarttls;
   SmtpLogin (username spec) (password spec);
   SmtpSendMessage m;
   SmtpQuit].

(** ** Sample worlds

    Concrete environments on which the definitions above are run. *)

(** An environment in which every call succeeds: the terminal answers a
    [wsd] with [r], the export reports success, every other call returns
    nothing. *)
Definition cooperative (r : WindData) : list call -> call -> reply := fun _ c =>
  match c with
  | WindWsd _ _ _ _ _ => Returns (Response r)
  | ComExport _ => Returns (Flag true)
  | _ => Returns NoValue
  end.

(** The same environment with the answer to the calls selected by [at_]
    replaced by [a]. *)
Definition except (at_ : call -> bool) (a : reply) (env : list call -> call -> reply) :
    list call -> call -> reply :=
  fun history c => if at_ c then a else env history c.

Definition everything_imported (m : module) : bool := true.

Definition fresh_world (d : gmap string file) (l : gmap nat (list string))
    (env : list call -> call -> reply) : world :=
  World d l [] [] env everything_imported.

(** The demo workbook: Sheet1!A1 = 100, Sheet2!A2 = 300. *)
Definition demo_workbook : workbook :=
  {[ "Sheet1" := {[ "A1" := Scalar (DNum 100) ]};
     "Sheet2" := {[ "A2" := Scalar (DNum 300) ]} ]}.

Definition demo_disk : gmap string file :=
  {[ "report.xlsx" := WorkbookFile demo_workbook ]}.



Definition two_fields : DataSpec :=
  {| identifier := "000001.SZ"; fields := ["open"; "close"];
     start := "2024-01-01"; end_ := "2024-01-10"; frequency := "D"; options := None |}.

Definition full_answer : WindData :=
  {| ErrorCode := 0; Data := [[DNum 10; DNum 11]; [DNum 12; DNum 13]];
     Times := [DText "2024-01-02"; DText "2024-01-03"] |}.

Definition short_answer : WindData :=
  {| ErrorCode := 0; Data := [[DNum 10; DNum 11]];
     Times := [DText "2024-01-02"; DText "2024-01-03"] |}.

Definition ragged_answer : WindData :=
  {| ErrorCode := 0; Data := [[DNum 10; DNum 11; DNum 12]; [DNum 12; DNum 13]];
     Times := [DText "2024-01-02"; DText "2024-01-03"] |}.

Definition refused_answer : WindData :=
  {| ErrorCode := (-40520007); Data := []; Times := [] |}.

Definition times_requested : DataSpec :=
  {| identifier := "000001.SZ"; fields := ["close"; "times"];
     start := "2024-01-01"; end_ := "2024-01-10"; frequency := "D"; options := None |}.

Definition demo_shot : ScreenshotSpec :=
  {| ss_workbook_path := "report.xlsx"; ss_sheet_name := "Sheet1";
     range_address := "A1:F20"; output_path := "report.png" |}.

Definition is_export (c : call) : bool :=
  match c with
  | ComExport _ => true
  | _ => false
  end.

Definition is_set_visible (c : call) : bool :=
  match c with
  | ComSetVisible _ => true
  | _ => false
  end.

(** The host reports that the export failed. *)
Definition export_fails_world : world :=
  fresh_world demo_disk ∅ (except is_export (Returns (Flag false)) (cooperative full_answer)).

(** The host rejects the property put that hides its window. *)
Definition hide_rejected_world : world :=
  fresh_world demo_disk ∅
    (except is_set_visible (Raises (ComError (-2147418111))) (cooperative full_answer)).

Definition all_fine_world : world :=
  fresh_world demo_disk ∅ (cooperative full_answer).

Definition is_login (c : call) : bool :=
  match c with
  | SmtpLogin _ _ => true
  | _ => false
  end.

Definition demo_mail : EmailSpec :=
  {| smtp_host := "smtp.example.com"; smtp_port := 587;
     username := "bot@example.com"; password := "password";
     recipients := ["recipient@example.com"]; cc := []; bcc := [];
     subject := "Daily Wind Report"; body := "See attached Excel and screenshot.";
     attachments := 0 |}.


(** The server rejects the credentials. *)
Definition login_rejected_world : world :=
  fresh_world demo_disk {[ 0 := ["report.xlsx"] ]}
    (except is_login (Raises (SMTPAuthenticationError 535)) (cooperative full_answer)).

Definition demo_workflow : Workflow :=
  {| data_fetcher := MkWindDataFetcher; populator := MkExcelPopulator;
     screenshotter := MkExcelScreenshotter |}.

Definition demo_cells : CellMapping :=
  {| cm_workbook_path := "report.xlsx"; cm_sheet_name := "Sheet1";
     mapping := [("close", "B2"); ("open", "B3")] |}.



(** A run in which the export fails, and one in which the login fails. *)
Definition run_export_fails : world :=
  fresh_world demo_disk {[ 0 := [] ]}
    (except is_export (Returns (Flag false)) (cooperative full_answer)).

Definition run_login_fails : world :=
  fresh_world demo_disk {[ 0 := [] ]}
    (except is_login (Raises (SMTPAuthenticationError 535)) (cooperative full_answer)).


Definition refused_world : world :=
  fresh_world ∅ ∅ (cooperative refused_answer).


Definition is_wind_stop (c : call) : bool :=
  match c with
  | WindStop => true
  | _ => false
  end.

(** The terminal refuses the request and the logout call raises. *)
Definition logout_fails_world : world :=
  fresh_world ∅ ∅ (except is_wind_stop (Raises AttributeError) (cooperative refused_answer)).

Definition is_quit (c : call) : bool :=
  match c with
  | ComQuit => true
  | _ => false
  end.

(** The export fails and the call that quits the host raises too. *)
Definition quit_fails_world : world :=
  fresh_world demo_disk ∅
    (except is_quit (Raises (ComError (-2147023174)))
       (except is_export (Returns (Flag false)) (cooperative full_answer))).





Definition demo_k : demo_constants :=
  {| SCREENSHOT_PATH := "demo_report.png"; GMAIL_ACCOUNT := "sender@example.com";
     GMAIL_APP_PASSWORD := "app-password"; RECIPIENTS := ["reader@example.com"] |}.

(** A machine without pywin32. *)
Definition no_win32com_world : world :=
  World demo_disk {[ 0 := ["earlier.txt"] ]} [] [] (cooperative full_answer)
        (fun m => match m with win32com => false | _ => true end).

(** The demo workbook and a picture are on disk; an unrelated list object
    exists. *)
Definition gmail_world : world :=
  fresh_world (<["demo_report.png" := PictureFile "demo_report.xlsx" "Sheet1" "A1:B5"]>
                 {[ "demo_report.xlsx" := WorkbookFile demo_workbook ]})
              {[ 0 := ["earlier.txt"] ]} (cooperative full_answer).

(** * Properties *)

(** ** Running a computation *)

Lemma bind_ok {A B} (m : M A) (k : A -> M B) w a w1 :
  m w = (Ok a, w1) -> bind m k w = k a w1.
Proof. intros H. unfold bind. by rewrite H. Qed.

Lemma bind_ret_world {A B} (m : M A) (x : B) w :
  (bind m (fun _ => ret x) w).2 = (m w).2.
Proof. unfold bind, ret. by destruct (m w) as [[a|e] w1]. Qed.

Lemma bind_raise {A B} (m : M A) (k : A -> M B) w e w1 :
  m w = (Raise e, w1) -> bind m k w = (Raise e, w1).
Proof. intros H. unfold bind. by rewrite H. Qed.

(** ** The loop of [fetch] *)

Lemma fill_payload_enough data l : forall i p,
  i + length l <= length data ->
  exists p', fill_payload data (enumerate_from i l) p = Ok p'
    /\ dom p' = dom p ∪ list_to_set l
    /\ (forall f, f ∉ l -> p' !! f = p !! f)
    /\ (forall k f, l !! k = Some f -> f ∉ drop (S k) l -> p' !! f = data !! (i + k)).
Proof.
  induction l as [|x l IH]; intros i p Hlen; simpl in *.
  - exists p. split; [done|]. split; [set_solver|]. split; [done|].
    intros k f Hk. by rewrite lookup_nil in Hk.
  - destruct (data !! i) as [row|] eqn:Hrow.
    2:{ apply lookup_ge_None in Hrow. lia. }
    destruct (IH (S i) (<[x := row]> p)) as (p' & Hfill & Hdom & Hout & Hin); [lia|].
    exists p'. split; [done|]. split.
    { rewrite Hdom, dom_insert_L. set_solver. }
    split.
    { intros f Hf. rewrite Hout by set_solver. apply lookup_insert_ne. set_solver. }
    intros [|k] f Hk Hlast; simpl in *.
    + injection Hk as ->. rewrite Hout by done.
      rewrite lookup_insert_eq, Nat.add_0_r. done.
    + rewrite (Hin k f Hk Hlast). f_equal. lia.
Qed.

Lemma fill_payload_short data l : forall i p,
  i <= length data -> length data < i + length l ->
  fill_payload data (enumerate_from i l) p = Raise IndexError.
Proof.
  induction l as [|x l IH]; intros i p Hi Hlen; simpl in *; [lia|].
  destruct (data !! i) as [row|] eqn:Hrow; [|done].
  apply lookup_lt_Some in Hrow. apply IH; lia.
Qed.

Lemma fill_payload_rows data items : forall p p',
  fill_payload data items p = Ok p' ->
  forall f s, p' !! f = Some s -> p !! f = Some s \/ s ∈ data.
Proof.
  induction items as [|[idx fld] items IH]; intros p p' Hfill f s Hf; simpl in *.
  - injection Hfill as <-. by left.
  - destruct (data !! idx) as [row|] eqn:Hrow; [|done].
    destruct (IH _ _ Hfill f s Hf) as [Hp|Hd]; [|by right].
    destruct (decide (fld = f)) as [->|Hne].
    + rewrite lookup_insert_eq in Hp. injection Hp as <-.
      right. by eapply list_elem_of_lookup_2.
    + rewrite lookup_insert_ne in Hp by done. by left.
Qed.

(** How [fetch] runs once the terminal has answered with [r]. *)
Lemma fetch_answered self spec w r :
  outside w (trace w) (wsd_call spec) = Returns (Response r) ->
  fetch self spec w =
    (if decide (ErrorCode r ≠ 0%Z) then
       Raise (RuntimeError ("Wind request failed: " +:+ pretty (ErrorCode r)))
     else
       match fill_payload (Data r) (enumerate (fields spec)) ∅ with
       | Ok payload =>
           Ok (if has_times r then <["times" := Times r]> payload else payload)
       | Raise e => Raise e
       end,
     set_trace (trace w ++ [wsd_call spec])
       (set_logs (logs w ++ [Build_log_record INFO "Fetching Wind data: %s %s %s-%s"
          [LStr (identifier spec); LStrs (fields spec); LStr (start spec); LStr (end_ spec)]]) w)).
Proof.
  intros Hans. unfold fetch, bind, logging, extern, lift, raise, ret; simpl.
  rewrite Hans. case_decide; [done|].
  destruct (fill_payload _ _ _); [|done]. by destruct (has_times r).
Qed.

(** ** [WindDataFetcher.fetch] *)

(** The decimal rendering of the error code in the message determines the
    code. *)
Lemma wind_error_carries_code (c1 c2 : Z) :
  RuntimeError ("Wind request failed: " +:+ pretty c1)
    = RuntimeError ("Wind request failed: " +:+ pretty c2) -> c1 = c2.
Proof.
  intros H. injection H as H. by apply (inj pretty).
Qed.

(** C4, as stated, is false.  With status zero and fewer data rows than
    requested fields no mapping is returned at all: [fetch] raises
    [IndexError].  And the sequences of a returned mapping are the rows as
    the terminal sent them, whatever their length. *)
Lemma fetch_subset_cex :
  ~ (forall self spec w r,
       outside w (trace w) (wsd_call spec) = Returns (Response r) ->
       ErrorCode r = 0%Z ->
       exists payload : gmap string (list datum),
         result_of (fetch self spec) w = Ok payload
         /\ (forall i f, fields spec !! i = Some f -> i < length (Data r) -> f ∈ dom payload)
         /\ (forall f, f ∈ dom payload -> f = "times" \/
               exists i, fields spec !! i = Some f /\ i < length (Data r)))
  /\ ~ (forall self spec w r (payload : gmap string (list datum)),
         outside w (trace w) (wsd_call spec) = Returns (Response r) ->
         ErrorCode r = 0%Z ->
         result_of (fetch self spec) w = Ok payload ->
         has_times r = true ->
         forall f s, payload !! f = Some s -> length s = length (Times r)).
Proof.
  split.
  - intros Hclaim.
    destruct (Hclaim MkWindDataFetcher two_fields
                (fresh_world ∅ ∅ (cooperative short_answer)) short_answer)
      as (payload & Hres & _); [done|done|].
    vm_compute in Hres. discriminate.
  - intros Hclaim.
    pose proof (Hclaim MkWindDataFetcher two_fields
                  (fresh_world ∅ ∅ (cooperative ragged_answer)) ragged_answer
                  _ eq_refl eq_refl eq_refl eq_refl "open" [DNum 10; DNum 11; DNum 12]) as Hlen.
    simpl in Hlen. specialize (Hlen eq_refl). discriminate.
Qed.

(** C4, amended.  A non-zero status makes [fetch] raise a [RuntimeError]
    whose message carries the code.  With status zero and a data row for
    every requested field, [fetch] returns a mapping whose keys are exactly
    the requested names, plus ["times"] when timestamps are present; a
    requested name maps to the row at the position of its last occurrence
    (unless it is ["times"] and timestamps are present), ["times"] maps to
    the timestamps, and when all rows of the terminal have the length of
    the timestamp sequence so has every sequence of the mapping. *)
Theorem fetch_contract self spec w r :
  outside w (trace w) (wsd_call spec) = Returns (Response r) ->
  (ErrorCode r ≠ 0%Z ->
     result_of (fetch self spec) w
       = Raise (RuntimeError ("Wind request failed: " +:+ pretty (ErrorCode r))))
  /\ (ErrorCode r = 0%Z -> length (fields spec) <= length (Data r) ->
      exists payload : gmap string (list datum),
        result_of (fetch self spec) w = Ok payload
        /\ dom payload = list_to_set (fields spec) ∪ (if has_times r then {["times"]} else ∅)
        /\ (forall i f, fields spec !! i = Some f -> f ∉ drop (S i) (fields spec) ->
              (f = "times" -> has_times r = false) -> payload !! f = Data r !! i)
        /\ (has_times r = true -> payload !! "times" = Some (Times r))
        /\ ((forall row, row ∈ Data r -> length row = length (Times r)) ->
              forall f s, payload !! f = Some s -> length s = length (Times r))).
Proof.
  intros Hans. unfold result_of. rewrite (fetch_answered _ _ _ _ Hans). simpl.
  split.
  - intros Hcode. by rewrite decide_True.
  - intros Hcode Hlen. rewrite decide_False by (intros ?; done).
    destruct (fill_payload_enough (Data r) (fields spec) 0 ∅) as (p & Hfill & Hdom & Hout & Hin);
      [simpl; lia|].
    unfold enumerate. rewrite Hfill.
    pose proof (fill_payload_rows _ _ _ _ Hfill) as Hrows.
    rewrite dom_empty_L, (left_id_L ∅ (∪)) in Hdom.
    destruct (has_times r) eqn:Ht.
    + exists (<["times" := Times r]> p). split; [done|]. split.
      { rewrite dom_insert_L, Hdom. set_solver. }
      split.
      { intros i f Hi Hlast Hnt. rewrite lookup_insert_ne.
        - apply (Hin i f Hi Hlast).
        - intros <-. by specialize (Hnt eq_refl). }
      split; [intros _; apply lookup_insert_eq|].
      intros Hall f s Hf. destruct (decide (f = "times")) as [->|Hne].
      * rewrite lookup_insert_eq in Hf. by injection Hf as <-.
      * rewrite lookup_insert_ne in Hf by done.
        destruct (Hrows f s Hf) as [He|Hd]; [by rewrite lookup_empty in He|by apply Hall].
    + exists p. split; [done|]. split; [rewrite Hdom; set_solver|].
      split; [intros i f Hi Hlast _; apply (Hin i f Hi Hlast)|].
      split; [done|].
      intros Hall f s Hf.
      destruct (Hrows f s Hf) as [He|Hd]; [by rewrite lookup_empty in He|by apply Hall].
Qed.

Lemma fetch_contract_witness :
  result_of (fetch MkWindDataFetcher two_fields)
      (fresh_world ∅ ∅ (cooperative refused_answer))
    = Raise (RuntimeError "Wind request failed: -40520007")
  /\ exists payload : gmap string (list datum),
       result_of (fetch MkWindDataFetcher two_fields)
           (fresh_world ∅ ∅ (cooperative full_answer)) = Ok payload
       /\ dom payload = {["open"; "close"; "times"]}
       /\ payload !! "close" = Some [DNum 12; DNum 13].
Proof.
  split.
  - apply (fetch_contract MkWindDataFetcher two_fields
             (fresh_world ∅ ∅ (cooperative refused_answer)) refused_answer);
      [reflexivity|discriminate].
  - destruct (fetch_contract MkWindDataFetcher two_fields
                (fresh_world ∅ ∅ (cooperative full_answer)) full_answer eq_refl)
      as [_ Hok].
    destruct (Hok eq_refl) as (payload & Hres & Hdom & Hrow & _); [simpl; lia|].
    exists payload. split; [exact Hres|]. split.
    + rewrite Hdom. simpl. set_solver.
    + apply (Hrow 1 "close"); [reflexivity| |discriminate].
      simpl. apply not_elem_of_nil.
Defined.

(** C9.  When ["times"] is one of the requested fields and the terminal
    supplies timestamps, the mapping returned by a successful [fetch] holds
    the timestamps under ["times"], whatever data row the terminal sent for
    that field; nothing is raised and nothing beyond the usual [INFO]
    record is logged. *)
Theorem fetch_times_overwritten self spec w r :
  "times" ∈ fields spec ->
  outside w (trace w) (wsd_call spec) = Returns (Response r) ->
  ErrorCode r = 0%Z ->
  length (fields spec) <= length (Data r) ->
  has_times r = true ->
  exists payload : gmap string (list datum),
    result_of (fetch self spec) w = Ok payload
    /\ payload !! "times" = Some (Times r)
    /\ (exists i row, fields spec !! i = Some "times" /\ Data r !! i = Some row)
    /\ exists record, lr_level record = INFO
         /\ logs (world_after (fetch self spec) w) = logs w ++ [record].
Proof.
  intros Hin Hans Hcode Hlen Ht. unfold result_of, world_after.
  rewrite (fetch_answered _ _ _ _ Hans). simpl.
  rewrite decide_False by (intros ?; done).
  destruct (fill_payload_enough (Data r) (fields spec) 0 ∅) as (p & Hfill & _);
    [simpl; lia|].
  unfold enumerate. rewrite Hfill, Ht.
  eexists. split; [done|]. split; [apply lookup_insert_eq|]. split.
  - apply list_elem_of_lookup_1 in Hin as [i Hi]. exists i.
    destruct (lookup_lt_is_Some_2 (Data r) i) as [row Hrow].
    + apply lookup_lt_Some in Hi. lia.
    + by exists row.
  - eexists. split; [|done]. done.
Qed.

Lemma fetch_times_overwritten_witness :
  exists payload : gmap string (list datum),
    result_of (fetch MkWindDataFetcher times_requested)
        (fresh_world ∅ ∅ (cooperative full_answer)) = Ok payload
    /\ payload !! "times" = Some [DText "2024-01-02"; DText "2024-01-03"]
    /\ Data full_answer !! 1 = Some [DNum 12; DNum 13].
Proof.
  destruct (fetch_times_overwritten MkWindDataFetcher times_requested
              (fresh_world ∅ ∅ (cooperative full_answer)) full_answer)
    as (payload & Hres & Htimes & _).
  - simpl. apply list_elem_of_further, list_elem_of_here.
  - reflexivity.
  - reflexivity.
  - simpl. lia.
  - reflexivity.
  - exists payload. split; [exact Hres|]. split; [exact Htimes|reflexivity].
Defined.

(** ** [ExcelPopulator.populate] *)

Lemma populate_loop_run items payload : forall sh w,
  populate_loop items payload sh w =
    (Ok (written items payload sh),
     set_logs (logs w ++ (warning_for <$> missing_keys items payload)) w).
Proof.
  unfold missing_keys.
  induction items as [|[key cell] items IH]; intros sh w; simpl.
  - unfold ret, set_logs. rewrite app_nil_r. by destruct w.
  - rewrite filter_cons. simpl. destruct (payload !! key) as [values|] eqn:Hkey.
    + rewrite decide_False by done. apply IH.
    + rewrite decide_True by done. unfold bind, logging. rewrite IH. simpl.
      unfold set_logs; simpl. by rewrite <- app_assoc.
Qed.


Lemma missing_keys_present items payload :
  missing_keys (present_items items payload) payload = [].
Proof.
  unfold missing_keys, present_items.
  induction items as [|[key cell] items IH]; simpl; [done|].
  rewrite filter_cons. simpl. destruct (payload !! key) as [values|] eqn:Hkey.
  - rewrite decide_True by done. rewrite filter_cons. simpl.
    by rewrite decide_False by (by rewrite Hkey).
  - by rewrite decide_False by (by intros [? ?]).
Qed.

(** A cell that no item with a present key points at keeps its value. *)
Lemma written_frame items payload : forall sh address,
  (forall key, (key, address) ∈ items -> payload !! key = None) ->
  written items payload sh !! address = sh !! address.
Proof.
  induction items as [|[key cell] items IH]; intros sh address Hfree; simpl; [done|].
  destruct (payload !! key) as [values|] eqn:Hkey.
  - rewrite IH by (intros k Hk; apply Hfree; by right).
    apply lookup_insert_ne. intros ->.
    specialize (Hfree key (list_elem_of_here _ _)). congruence.
  - apply IH. intros k Hk. apply Hfree. by right.
Qed.



Lemma populate_loaded self spec payload w wb sh :
  disk w !! cm_workbook_path spec = Some (WorkbookFile wb) ->
  wb !! cm_sheet_name spec = Some sh ->
  populate self spec payload w =
    (Ok (cm_workbook_path spec),
     World (<[cm_workbook_path spec :=
               WorkbookFile (<[cm_sheet_name spec := written (mapping spec) payload sh]> wb)]>
              (disk w))
           (lists w)
           (trace w ++ [LoadWorkbook (cm_workbook_path spec); SaveWorkbook (cm_workbook_path spec)])
           (logs w ++ populate_info spec :: (warning_for <$> missing_keys (mapping spec) payload))
           (outside w) (imported w)).
Proof.
  intros Hfile Hsheet.
  unfold populate, bind, logging, load_workbook, get_sheet, save_workbook, ret; simpl.
  rewrite Hfile, Hsheet, populate_loop_run. simpl.
  by rewrite <- !app_assoc.
Qed.









(** ** [ExcelScreenshotter.capture] *)

Lemma bind_extern {B} (c : call) (k : retval -> M B) w :
  bind (extern c) k w =
    match outside w (trace w) c with
    | Returns v => k v (set_trace (trace w ++ [c]) w)
    | Raises e => (Raise e, set_trace (trace w ++ [c]) w)
    end.
Proof. unfold bind, extern. by destruct (outside w (trace w) c). Qed.

(** Whatever the protected block does, the [finally] clause makes the call
    that quits the host, and it is the last call. *)
Lemma try_finally_quit {A} (body : M A) w :
  trace (world_after (try_finally body (extern ComQuit ;; ret tt)) w)
    = trace (world_after body w) ++ [ComQuit].
Proof.
  unfold world_after, try_finally. destruct (body w) as [r w1]. simpl.
  rewrite bind_extern. by destruct (outside w1 (trace w1) ComQuit).
Qed.

(** Once the host is launched and hidden, every exit of [capture] goes
    through [excel.Quit()], which is its last call to the outside. *)
Lemma capture_quits_once_hidden self spec w v1 v2 :
  outside w (trace w ++ [MkdirParents (resolve (output_path spec))])
    (ComDispatch "Excel.Application") = Returns v1 ->
  outside w (trace w ++ [MkdirParents (resolve (output_path spec));
                         ComDispatch "Excel.Application"])
    (ComSetVisible false) = Returns v2 ->
  last (trace (world_after (capture self spec) w)) = Some ComQuit.
Proof.
  intros Hlaunch Hhide. unfold world_after, capture.
  unfold bind at 1. unfold note at 1. unfold bind at 1. unfold logging at 1.
  rewrite bind_extern. simpl. rewrite Hlaunch.
  rewrite bind_extern. simpl. rewrite <- app_assoc. simpl. rewrite Hhide.
  rewrite bind_ret_world.
  match goal with |- context [try_finally ?b _ ?w0] =>
    pose proof (try_finally_quit b w0) as Hquit
  end.
  unfold world_after in Hquit. rewrite Hquit. apply last_snoc.
Qed.

(** The property put that hides the host sits between the launch and the
    [try]: when it raises, the exception leaves [capture] and the call that
    quits the host is not made. *)
Lemma capture_leaves_host_when_hiding_fails self spec w v e :
  outside w (trace w ++ [MkdirParents (resolve (output_path spec))])
    (ComDispatch "Excel.Application") = Returns v ->
  outside w (trace w ++ [MkdirParents (resolve (output_path spec));
                         ComDispatch "Excel.Application"])
    (ComSetVisible false) = Raises e ->
  result_of (capture self spec) w = Raise e
  /\ trace (world_after (capture self spec) w)
       = trace w ++ [MkdirParents (resolve (output_path spec));
                     ComDispatch "Excel.Application"; ComSetVisible false].
Proof.
  intros Hlaunch Hhide. unfold result_of, world_after.
  assert (exists l,
            capture self spec w =
              (Raise e,
               World (disk w) (lists w)
                     (trace w ++ [MkdirParents (resolve (output_path spec));
                                  ComDispatch "Excel.Application"; ComSetVisible false])
                     l (outside w) (imported w))) as [l ->]; [|done].
  eexists. unfold capture.
  unfold bind at 1. unfold note at 1. unfold bind at 1. unfold logging at 1.
  rewrite bind_extern. simpl. rewrite Hlaunch.
  rewrite bind_extern. simpl. rewrite <- app_assoc. simpl. rewrite Hhide.
  unfold set_trace. simpl. by rewrite <- !app_assoc.
Qed.

(** C5, at the failing input.  The host is launched, the property put
    [excel.Visible = False] raises: the exception leaves [capture] and
    [excel.Quit()] has not been called. *)
Theorem capture_hide_rejected_no_quit :
  result_of (capture MkExcelScreenshotter demo_shot) hide_rejected_world
    = Raise (ComError (-2147418111))
  /\ trace (world_after (capture MkExcelScreenshotter demo_shot) hide_rejected_world)
       = [MkdirParents "report.png"; ComDispatch "Excel.Application"; ComSetVisible false]
  /\ (ComQuit ∉ trace (world_after (capture MkExcelScreenshotter demo_shot) hide_rejected_world)).
Proof.
  split; [reflexivity|]. split; [reflexivity|].
  intros Hin. vm_compute in Hin.
  repeat (apply elem_of_cons in Hin as [Heq|Hin]; [discriminate|]).
  by apply elem_of_nil in Hin.
Qed.

(** C2, at the failing input.  The export reports failure: [capture]
    raises its [RuntimeError] and the only cleanup call is [excel.Quit()];
    the chart is not deleted and the workbook is not closed. *)
Theorem capture_export_failure_cleanup :
  result_of (capture MkExcelScreenshotter demo_shot) export_fails_world
    = Raise (RuntimeError ("Excel 截图导出失败: " +:+ "report.png"))
  /\ trace (world_after (capture MkExcelScreenshotter demo_shot) export_fails_world)
       = [MkdirParents "report.png"; ComDispatch "Excel.Application"; ComSetVisible false;
          ComWorkbooksOpen "report.xlsx"; ComWorksheets "Sheet1"; ComRange "A1:F20";
          ComCopyPicture; ComWorksheets "Sheet1"; ComChartObjects; ComAdd 0 0 500 300;
          ComPaste; ComExport "report.png"; ComQuit]
  /\ (ComDelete ∉ trace (world_after (capture MkExcelScreenshotter demo_shot) export_fails_world))
  /\ (ComClose 0 ∉ trace (world_after (capture MkExcelScreenshotter demo_shot) export_fails_world)).
Proof.
  split; [reflexivity|]. split; [reflexivity|].
  split; intros Hin; vm_compute in Hin;
    repeat (apply elem_of_cons in Hin as [Heq|Hin]; [discriminate|]);
    by apply elem_of_nil in Hin.
Qed.

(** On the path without any failure the cleanup calls are made in the
    order delete, close without saving, quit. *)
Lemma capture_success_cleanup :
  result_of (capture MkExcelScreenshotter demo_shot) all_fine_world = Ok "report.png"
  /\ trace (world_after (capture MkExcelScreenshotter demo_shot) all_fine_world)
       = [MkdirParents "report.png"; ComDispatch "Excel.Application"; ComSetVisible false;
          ComWorkbooksOpen "report.xlsx"; ComWorksheets "Sheet1"; ComRange "A1:F20";
          ComCopyPicture; ComWorksheets "Sheet1"; ComChartObjects; ComAdd 0 0 500 300;
          ComPaste; ComExport "report.png"; ComDelete; ComClose 0; ComQuit].
Proof. split; reflexivity. Qed.

(** ** A small logic for the stages *)

Global Instance moves_preorder P D : PreOrder (moves P D).
Proof.
  split.
  - intros w. split; [exists []; by rewrite app_nil_r|done].
  - intros w1 w2 w3 ([t1 [Ht1 HP1]] & Hd1 & Hl1 & Hi1) ([t2 [Ht2 HP2]] & Hd2 & Hl2 & Hi2).
    split; [|split; [|split]].
    + exists (t1 ++ t2). split; [by rewrite Ht2, Ht1, app_assoc|by apply Forall_app].
    + intros path Hpath. by rewrite Hd2, Hd1.
    + congruence.
    + congruence.
Qed.

Lemma moves_call (P : call -> Prop) D c w : P c -> moves P D w (set_trace (trace w ++ [c]) w).
Proof.
  intros Hc. split; [|done]. exists [c]. split; [done|]. by apply Forall_singleton.
Qed.

Lemma moves_log P D l w : moves P D w (set_logs l w).
Proof. split; [|done]. exists []. by rewrite app_nil_r. Qed.


Section logic.
Context (I : relation world) `{!PreOrder I} (Own : exn -> Prop).

Lemma safe_ret {A} (a : A) : safe I Own (ret a).
Proof. intros w. simpl. split; [reflexivity|]. split; [done|]. by intros e. Qed.



Lemma safe_bind {A B} (m : M A) (k : A -> M B) :
  safe I Own m -> (forall a, safe I Own (k a)) -> safe I Own (bind m k).
Proof.
  intros Hm Hk w. unfold bind. destruct (Hm w) as (HI & Henv & Hex).
  destruct (m w) as [[a|e] w1]; simpl in *.
  - destruct (Hk a w1) as (HI' & Henv' & Hex').
    split; [by etrans|]. split; [congruence|].
    intros e He. destruct (Hex' e He) as [?|(h & c & Hc)]; [by left|].
    right. exists h, c. congruence.
  - split; [done|]. split; [done|]. intros e' [= <-]. by apply Hex.
Qed.

Lemma safe_try_finally {A} (body : M A) (fin : M unit) :
  safe I Own body -> safe I Own fin -> safe I Own (try_finally body fin).
Proof.
  intros Hb Hf w. unfold try_finally. destruct (Hb w) as (HI & Henv & Hex).
  destruct (body w) as [r w1]; simpl in *.
  destruct (Hf w1) as (HI' & Henv' & Hex').
  destruct (fin w1) as [[[]|e] w2]; simpl in *.
  - split; [by etrans|]. split; [congruence|]. done.
  - split; [by etrans|]. split; [congruence|].
    intros e' [= <-]. destruct (Hex' e eq_refl) as [?|(h & c & Hc)]; [by left|].
    right. exists h, c. congruence.
Qed.

Lemma safe_with {A B} (enter : M B) (exit_ : M unit) (body : B -> M A) :
  safe I Own enter -> safe I Own exit_ -> (forall x, safe I Own (body x)) ->
  safe I Own (with_ enter exit_ body).
Proof.
  intros He Hx Hb. apply safe_bind; [done|]. intros x. by apply safe_try_finally.
Qed.

Lemma safe_extern c :
  (forall w, I w (set_trace (trace w ++ [c]) w)) -> safe I Own (extern c).
Proof.
  intros Hc w. unfold extern. destruct (outside w (trace w) c) as [v|e] eqn:Hreply; simpl.
  - split; [done|]. split; [done|]. by intros e.
  - split; [done|]. split; [done|]. intros e' [= <-]. right. by exists (trace w), c.
Qed.

Lemma safe_note c :
  (forall w, I w (set_trace (trace w ++ [c]) w)) -> safe I Own (note c).
Proof. intros Hc w. simpl. split; [done|]. split; [done|]. by intros e. Qed.

Lemma safe_logging l msg args :
  (forall w r, I w (set_logs r w)) -> safe I Own (logging l msg args).
Proof. intros Hl w. simpl. split; [done|]. split; [done|]. by intros e. Qed.

End logic.


(** A rule of the logic applies, or a call or a log record is accounted
    for by [moves]. *)
Ltac safe_step :=
  first
    [ apply safe_ret; tc_solve
    | apply safe_bind; [tc_solve| |intros ?]
    | apply safe_try_finally; [tc_solve| |]
    | apply safe_with; [tc_solve| | |intros ?]
    | apply safe_extern; intros ?; apply moves_call; done
    | apply safe_note; intros ?; apply moves_call; done
    | apply safe_logging; intros ? ?; apply moves_log ].

(** *** The four stages *)






Lemma attach_all_safe paths : forall parts,
  safe (moves is_mail (fun _ => False)) made_by_send (attach_all paths parts).
Proof.
  induction paths as [|path paths IH]; intros parts; simpl; [safe_step|].
  apply safe_bind; [tc_solve| |intros data; apply IH].
  intros w. unfold read_bytes. destruct (disk w !! path); simpl.
  - split; [apply moves_call; by left|]. split; [done|]. by intros e.
  - split; [apply moves_call; by left|]. split; [done|].
    intros e [= <-]. left. right. by eexists.
Qed.

Lemma send_safe self : safe (moves is_mail (fun _ => False)) made_by_send (send self).
Proof.
  unfold send. safe_step; [safe_step|]. safe_step.
  { intros w. simpl. split; [reflexivity|]. split; [done|]. by intros e. }
  apply safe_bind; [tc_solve|apply attach_all_safe|intros ?].
  apply safe_with; [tc_solve| | |intros ?].
  - apply safe_extern. intros w. apply moves_call. by right.
  - apply safe_bind; [tc_solve| |intros ?; safe_step].
    apply safe_extern. intros w. apply moves_call. by right.
  - repeat (apply safe_bind;
              [tc_solve|apply safe_extern; intros w; apply moves_call; by right|intros ?]).
    safe_step.
Qed.


(** ** [EmailSender.send] *)







(** ** [Workflow.run] *)



(** A run in which the export fails: the exception of [capture] leaves
    [run], the terminal session was opened and closed, the workbook stays
    filled, nothing was appended to the attachments and no mail call was
    made. *)
Example run_aborts_at_capture :
  let w' := world_after (run demo_workflow two_fields demo_cells demo_shot demo_mail)
              run_export_fails in
  result_of (run demo_workflow two_fields demo_cells demo_shot demo_mail) run_export_fails
    = Raise (RuntimeError ("Excel 截图导出失败: " +:+ "report.png"))
  /\ trace w'
       = [WindStart; wsd_call two_fields; WindStop;
          LoadWorkbook "report.xlsx"; SaveWorkbook "report.xlsx";
          MkdirParents "report.png"; ComDispatch "Excel.Application"; ComSetVisible false;
          ComWorkbooksOpen "report.xlsx"; ComWorksheets "Sheet1"; ComRange "A1:F20";
          ComCopyPicture; ComWorksheets "Sheet1"; ComChartObjects; ComAdd 0 0 500 300;
          ComPaste; ComExport "report.png"; ComQuit]
  /\ lists w' !! 0 = Some []
  /\ (workbook_at (disk w') "report.xlsx" ≫= fun wb => cell_at wb "Sheet1" "B2")
       = Some (Series [DNum 12; DNum 13])
  /\ disk w' !! "report.png" = None.
Proof. vm_compute. repeat split; reflexivity. Qed.

(** A run in which the login fails: the workbook is filled, the picture
    is on disk, both paths were appended to the attachments, and the
    message was never sent. *)
Example run_aborts_at_send :
  let w' := world_after (run demo_workflow two_fields demo_cells demo_shot demo_mail)
              run_login_fails in
  result_of (run demo_workflow two_fields demo_cells demo_shot demo_mail) run_login_fails
    = Raise (SMTPAuthenticationError 535)
  /\ drop 20 (trace w')
       = [ReadBytes "report.xlsx"; ReadBytes "report.png";
          SmtpConnect "smtp.example.com" 587; SmtpStarttls;
          SmtpLogin "bot@example.com" "password"; SmtpQuit]
  /\ lists w' !! 0 = Some ["report.xlsx"; "report.png"]
  /\ (workbook_at (disk w') "report.xlsx" ≫= fun wb => cell_at wb "Sheet1" "B3")
       = Some (Series [DNum 10; DNum 11])
  /\ disk w' !! "report.png" = Some (PictureFile "report.xlsx" "Sheet1" "A1:F20").
Proof. vm_compute. repeat split; reflexivity. Qed.

(** ** The types of the errors *)




(** * Further properties of the code *)

(** ** The terminal session *)

(** X1.  Whatever the terminal answers, [fetch] makes one call to it, the
    [wsd] request, and touches neither the disk nor the list objects. *)
Theorem fetch_one_request self spec w :
  trace (world_after (fetch self spec) w) = trace w ++ [wsd_call spec]
  /\ disk (world_after (fetch self spec) w) = disk w
  /\ lists (world_after (fetch self spec) w) = lists w.
Proof.
  unfold world_after, fetch, bind, logging, extern, lift, raise, ret; simpl.
  destruct (outside w (trace w) (wsd_call spec)) as [[| |r]|e]; simpl; try done.
  case_decide; simpl; [done|].
  destruct (fill_payload _ _ _); simpl; [|done]. by destruct (has_times r).
Qed.

(** The world [fetch] leaves, whatever it gives back. *)
Lemma fetch_world self spec w :
  exists r,
    fetch self spec w =
      (r, World (disk w) (lists w) (trace w ++ [wsd_call spec])
                (logs w ++ [Build_log_record INFO "Fetching Wind data: %s %s %s-%s"
                   [LStr (identifier spec); LStrs (fields spec);
                    LStr (start spec); LStr (end_ spec)]])
                (outside w) (imported w)).
Proof.
  unfold fetch, bind, logging, extern, lift, raise, ret; simpl.
  destruct (outside w (trace w) (wsd_call spec)) as [[| |r]|e]; simpl; try by eexists.
  case_decide; simpl; [by eexists|].
  destruct (fill_payload _ _ _); simpl; [|by eexists]. destruct (has_times r); by eexists.
Qed.

(** How the [with] block around [fetch] runs once the login call has
    returned. *)
Lemma fetch_stage_started self spec w v :
  outside w (trace w) WindStart = Returns v ->
  exists l,
    fetch_stage self spec w =
      (match outside w (trace w ++ [WindStart; wsd_call spec]) WindStop with
       | Returns _ =>
           result_of (fetch (data_fetcher self) spec)
             (world_after (WindDataFetcher_enter (data_fetcher self)) w)
       | Raises e => Raise e
       end,
       World (disk w) (lists w) (trace w ++ [WindStart; wsd_call spec; WindStop]) l
             (outside w) (imported w)).
Proof.
  intros Hstart. unfold result_of, world_after, fetch_stage, with_.
  assert (WindDataFetcher_enter (data_fetcher self) w =
            (Ok (data_fetcher self),
             World (disk w) (lists w) (trace w ++ [WindStart])
                   (logs w ++ [Build_log_record INFO "Logging into Wind..." []])
                   (outside w) (imported w))) as Henter.
  { unfold WindDataFetcher_enter, bind, logging, extern, ret. simpl. by rewrite Hstart. }
  unfold bind. rewrite Henter. simpl. unfold try_finally.
  destruct (fetch_world (data_fetcher self) spec
              (World (disk w) (lists w) (trace w ++ [WindStart])
                 (logs w ++ [Build_log_record INFO "Logging into Wind..." []])
                 (outside w) (imported w))) as [r ->].
  unfold WindDataFetcher_exit, bind, logging, extern, ret. simpl.
  rewrite <- !app_assoc. simpl.
  destruct (outside w (trace w ++ [WindStart; wsd_call spec]) WindStop);
    simpl; rewrite <- ?app_assoc; simpl; by eexists.
Qed.

(** X2.  The terminal session is released on every exit of the [with] block:
    once the login call has returned, the calls are the login, the one
    request and the logout, whatever [fetch] gives back or raises.  When
    the login call itself raises, nothing else is called and its exception
    leaves the block. *)
Theorem wind_session_released self spec w :
  (forall v, outside w (trace w) WindStart = Returns v ->
     trace (world_after (fetch_stage self spec) w)
       = trace w ++ [WindStart; wsd_call spec; WindStop])
  /\ (forall e, outside w (trace w) WindStart = Raises e ->
        result_of (fetch_stage self spec) w = Raise e
        /\ trace (world_after (fetch_stage self spec) w) = trace w ++ [WindStart]).
Proof.
  split.
  - intros v Hstart. unfold world_after.
    by destruct (fetch_stage_started self spec w v Hstart) as [l ->].
  - intros e Hstart.
    unfold result_of, world_after, fetch_stage, with_, WindDataFetcher_enter,
      bind, logging, extern. simpl. by rewrite Hstart.
Qed.

Lemma wind_session_released_witness :
  trace (world_after (fetch_stage demo_workflow two_fields) refused_world)
    = [WindStart; wsd_call two_fields; WindStop].
Proof.
  destruct (wind_session_released demo_workflow two_fields refused_world) as [Hreleased _].
  apply (Hreleased NoValue). reflexivity.
Defined.

(** X3.  An exception of the logout call replaces whatever the block was about
    to give back: with a non-zero status and a logout that raises, the
    caller sees the logout's exception and not the [RuntimeError] with the
    status; when the logout returns, it sees that [RuntimeError]. *)
Theorem wind_logout_failure_masks self spec w v r :
  outside w (trace w) WindStart = Returns v ->
  outside w (trace w ++ [WindStart]) (wsd_call spec) = Returns (Response r) ->
  ErrorCode r ≠ 0%Z ->
  (forall e, outside w (trace w ++ [WindStart; wsd_call spec]) WindStop = Raises e ->
     result_of (fetch_stage self spec) w = Raise e)
  /\ (forall v', outside w (trace w ++ [WindStart; wsd_call spec]) WindStop = Returns v' ->
        result_of (fetch_stage self spec) w
          = Raise (RuntimeError ("Wind request failed: " +:+ pretty (ErrorCode r)))).
Proof.
  intros Hstart Hwsd Hcode.
  destruct (fetch_stage_started self spec w v Hstart) as [l Hrun].
  unfold result_of at 1 2. rewrite Hrun. simpl. split.
  - intros e He. by rewrite He.
  - intros v' Hv'. rewrite Hv'.
    assert (world_after (WindDataFetcher_enter (data_fetcher self)) w =
              World (disk w) (lists w) (trace w ++ [WindStart])
                    (logs w ++ [Build_log_record INFO "Logging into Wind..." []])
                    (outside w) (imported w)) as ->.
    { unfold world_after, WindDataFetcher_enter, bind, logging, extern, ret. simpl.
      by rewrite Hstart. }
    unfold result_of. rewrite (fetch_answered _ _ _ r) by done. simpl.
    by rewrite decide_True.
Qed.

Lemma wind_logout_failure_masks_witness :
  result_of (fetch_stage demo_workflow two_fields) logout_fails_world
    = Raise AttributeError
  /\ result_of (fetch_stage demo_workflow two_fields) refused_world
       = Raise (RuntimeError "Wind request failed: -40520007").
Proof.
  split.
  - destruct (wind_logout_failure_masks demo_workflow two_fields logout_fails_world
                NoValue refused_answer) as [Hmask _];
      [reflexivity|reflexivity|discriminate|].
    apply Hmask. reflexivity.
  - destruct (wind_logout_failure_masks demo_workflow two_fields refused_world
                NoValue refused_answer) as [_ Hsame];
      [reflexivity|reflexivity|discriminate|].
    apply (Hsame NoValue). reflexivity.
Defined.

(** ** The calls of [capture] *)

(** One call of the protected block: either it raises, and the block has
    made [k] calls, or the block goes on. *)
Ltac protected_step k :=
  rewrite bind_extern;
  match goal with
  | |- context [outside ?w0 ?h ?c] => destruct (outside w0 h c) as [?|?]
  end;
  [|exists k; do 2 eexists; split; [lia|]; simpl; rewrite <- ?app_assoc; simpl;
    split; [reflexivity|done]].

(** The protected block makes its calls in program order and stops at the
    first that raises, or after the export when it reports failure.  The
    picture is on disk exactly when the block went past the export. *)
Lemma capture_protected_run spec w :
  exists n l r,
    1 <= n <= 11
    /\ capture_protected spec (resolve (ss_workbook_path spec)) (resolve (output_path spec)) w
       = (r,
          World (if decide (10 <= n)
                 then <[resolve (output_path spec) := picture_of spec]> (disk w)
                 else disk w)
                (lists w) (trace w ++ take n (protected_calls spec)) l
                (outside w) (imported w))
    /\ (r = Ok tt -> n = 11).
Proof.
  unfold capture_protected, export.
  protected_step 1. protected_step 2. protected_step 3. protected_step 4.
  protected_step 5. protected_step 6. protected_step 7. protected_step 8.
  unfold bind at 1. rewrite bind_extern.
  match goal with
  | |- context [outside ?w0 ?h ?c] => destruct (outside w0 h c) as [exported|?]
  end.
  2:{ exists 9. do 2 eexists. split; [lia|]. simpl. rewrite <- ?app_assoc. simpl.
      split; [reflexivity|done]. }
  destruct (truthy exported) eqn:Hv; simpl.
  2:{ unfold ret at 1. simpl. rewrite Hv. simpl.
      exists 9. do 2 eexists. split; [lia|]. unfold bind, raise. simpl.
      rewrite <- ?app_assoc. simpl. split; [reflexivity|done]. }
  rewrite Hv. simpl. unfold bind at 1. unfold ret at 1.
  protected_step 10.
  protected_step 11.
  exists 11. do 2 eexists. split; [lia|]. unfold ret. simpl. rewrite <- ?app_assoc. simpl.
  split; [reflexivity|done].
Qed.

(** [capture] from start to end: where it stops and what it leaves. *)
Lemma capture_run self spec w :
  (exists e l,
     capture self spec w =
       (Raise e,
        World (disk w) (lists w) (trace w ++ take 2 (launch_calls spec)) l
              (outside w) (imported w)))
  \/ (exists e l,
        capture self spec w =
          (Raise e,
           World (disk w) (lists w) (trace w ++ launch_calls spec) l
                 (outside w) (imported w)))
  \/ (exists n l r,
        1 <= n <= 11
        /\ capture self spec w =
             (r,
              World (if decide (10 <= n)
                     then <[resolve (output_path spec) := picture_of spec]> (disk w)
                     else disk w)
                    (lists w)
                    (trace w ++ launch_calls spec ++ take n (protected_calls spec) ++ [ComQuit])
                    l (outside w) (imported w))
        /\ (forall p, r = Ok p -> n = 11 /\ p = resolve (output_path spec))
        /\ (forall e, outside w (trace w ++ launch_calls spec ++ take n (protected_calls spec))
                        ComQuit = Raises e -> r = Raise e)).
Proof.
  remember (capture self spec w) as res eqn:Hres.
  unfold capture in Hres. unfold bind at 1 in Hres. unfold note at 1 in Hres.
  unfold bind at 1 in Hres. unfold logging at 1 in Hres.
  rewrite bind_extern in Hres. simpl in Hres.
  destruct (outside w _ (ComDispatch "Excel.Application")) as [v1|e1].
  2:{ left. exists e1. eexists. rewrite Hres. unfold set_trace, set_logs. simpl.
      rewrite <- ?app_assoc. reflexivity. }
  rewrite bind_extern in Hres. simpl in Hres.
  destruct (outside w _ (ComSetVisible false)) as [v2|e2].
  2:{ right; left. exists e2. eexists. rewrite Hres. unfold set_trace, set_logs. simpl.
      rewrite <- ?app_assoc. reflexivity. }
  right; right. unfold bind at 1 in Hres. unfold try_finally in Hres.
  match type of Hres with context [capture_protected _ _ _ ?w0] =>
    destruct (capture_protected_run spec w0) as (n & l & r & Hn & Hrun & Hok)
  end.
  rewrite Hrun in Hres. clear Hrun.
  simpl in Hres. rewrite bind_extern in Hres. simpl in Hres.
  rewrite <- ?app_assoc in Hres. simpl in Hres.
  destruct (outside w _ ComQuit) as [v3|e3] eqn:Hquit.
  - destruct r as [[]|e].
    + exists n. do 2 eexists. split; [done|]. rewrite Hres. unfold ret, set_trace. simpl.
      rewrite <- ?app_assoc. simpl. split; [reflexivity|]. split.
      * intros p [= <-]. split; [by apply Hok|done].
      * intros e. rewrite Hquit. done.
    + exists n. do 2 eexists. split; [done|]. rewrite Hres. unfold set_trace. simpl.
      rewrite <- ?app_assoc. simpl. split; [reflexivity|]. split; [done|].
      intros e'. rewrite Hquit. done.
  - exists n. do 2 eexists. split; [done|]. rewrite Hres. unfold set_trace. simpl.
    rewrite <- ?app_assoc. simpl. split; [reflexivity|]. split; [done|].
    intros e'. rewrite Hquit. by intros [= <-].
Qed.





(** Every call of [capture] is one of the calls written in its body. *)
Lemma capture_call_protocol_calls self spec w :
  exists t,
    trace (world_after (capture self spec) w) = trace w ++ t
    /\ t ⊆ launch_calls spec ++ protected_calls spec ++ [ComQuit].
Proof.
  unfold world_after.
  destruct (capture_run self spec w)
    as [(e & l & ->)|[(e & l & ->)|(n & l & r & Hn & -> & _)]]; cbn [snd trace].
  - eexists. split; [reflexivity|]. intros c Hc. apply elem_of_app. left.
    by eapply subseteq_take.
  - eexists. split; [reflexivity|]. intros c Hc. apply elem_of_app. by left.
  - eexists. split; [reflexivity|]. intros c Hc.
    apply elem_of_app in Hc as [Hc|Hc]; [apply elem_of_app; by left|].
    apply elem_of_app. right.
    apply elem_of_app in Hc as [Hc|Hc]; apply elem_of_app; [left|by right].
    by eapply subseteq_take.
Qed.



(** X7.  [capture] never asks the host to save: every close call it makes is
    [Close(SaveChanges=0)], and the only file it exports to is the
    resolved output path. *)
Theorem capture_never_saves self spec w :
  exists t,
    trace (world_after (capture self spec) w) = trace w ++ t
    /\ (forall k, ComClose k ∈ t -> k = 0%Z)
    /\ (forall path, ComExport path ∈ t -> path = resolve (output_path spec)).
Proof.
  destruct (capture_call_protocol_calls self spec w) as (t & Htrace & Hsub).
  exists t. split; [done|]. split.
  - intros k Hin. apply Hsub in Hin. unfold launch_calls, protected_calls in Hin. simpl in Hin.
    repeat (apply elem_of_cons in Hin as [Heq|Hin]; [by (discriminate || injection Heq)|]).
    by apply elem_of_nil in Hin.
  - intros path Hin. apply Hsub in Hin. unfold launch_calls, protected_calls in Hin.
    simpl in Hin.
    repeat (apply elem_of_cons in Hin as [Heq|Hin]; [by (discriminate || injection Heq)|]).
    by apply elem_of_nil in Hin.
Qed.

(** X8.  An exception of the call that quits the host replaces whatever the
    protected block gave back or raised, the [RuntimeError] of a failed
    export included. *)
Theorem capture_quit_failure_masks self spec w v1 v2 e :
  outside w (trace w ++ [MkdirParents (resolve (output_path spec))])
    (ComDispatch "Excel.Application") = Returns v1 ->
  outside w (trace w ++ [MkdirParents (resolve (output_path spec));
                         ComDispatch "Excel.Application"])
    (ComSetVisible false) = Returns v2 ->
  (forall history, outside w history ComQuit = Raises e) ->
  result_of (capture self spec) w = Raise e.
Proof.
  intros Hlaunch Hhide Hquit.
  pose proof (capture_quits_once_hidden self spec w v1 v2 Hlaunch Hhide) as Hlast.
  unfold result_of, world_after in *.
  destruct (capture_run self spec w)
    as [(e' & l & Hrun)|[(e' & l & Hrun)|(n & l & r & Hn & Hrun & _ & Hmask)]];
    rewrite Hrun in Hlast |- *; simpl in *.
  - rewrite last_app in Hlast. simpl in Hlast. discriminate.
  - rewrite last_app in Hlast. simpl in Hlast. discriminate.
  - f_equal. by rewrite (Hmask e (Hquit _)).
Qed.

Lemma capture_quit_failure_masks_witness :
  result_of (capture MkExcelScreenshotter demo_shot) quit_fails_world
    = Raise (ComError (-2147023174)).
Proof.
  apply (capture_quit_failure_masks MkExcelScreenshotter demo_shot quit_fails_world
           NoValue NoValue); reflexivity.
Defined.

(** ** The mail session *)

Lemma attach_all_parts paths : forall parts w contents,
  Forall2 (fun path f => disk w !! path = Some f) paths contents ->
  attach_all paths parts w =
    (Ok (parts ++ zip contents (path_name <$> paths)),
     World (disk w) (lists w) (trace w ++ (ReadBytes <$> paths)) (logs w)
           (outside w) (imported w)).
Proof.
  induction paths as [|path paths IH]; intros parts w contents Hall; simpl.
  - apply Forall2_nil_inv_l in Hall as ->. unfold ret. simpl.
    rewrite !app_nil_r. by destruct w.
  - apply Forall2_cons_inv_l in Hall as (f & contents' & Hf & Hall & ->).
    unfold bind, read_bytes. rewrite Hf.
    rewrite (IH _ (set_trace (trace w ++ [ReadBytes path]) w) contents') by done.
    simpl. by rewrite <- !app_assoc.
Qed.

(** How [send] runs when every attachment is on disk and the connection
    is accepted. *)
Lemma send_connected self w contents v :
  let spec := es_spec self in
  let paths := lists w !!! attachments spec in
  Forall2 (fun path f => disk w !! path = Some f) paths contents ->
  outside w (trace w ++ (ReadBytes <$> paths)) (SmtpConnect (smtp_host spec) (smtp_port spec))
    = Returns v ->
  send self w =
    try_finally
      (extern SmtpStarttls ;;
       extern (SmtpLogin (username spec) (password spec)) ;;
       extern (SmtpSendMessage (message_of spec (zip contents (path_name <$> paths)))) ;;
       ret tt)
      (extern SmtpQuit ;; ret tt)
      (World (disk w) (lists w)
             (trace w ++ (ReadBytes <$> paths)
                ++ [SmtpConnect (smtp_host spec) (smtp_port spec)])
             (logs w ++ [Build_log_record INFO "Sending email to %s"
                           [LStrs (recipients spec)]])
             (outside w) (imported w)).
Proof.
  intros spec paths Hall Hconnect. subst spec paths.
  unfold send. unfold bind at 1. unfold logging at 1. unfold bind at 1. unfold deref at 1.
  simpl. unfold bind at 1.
  rewrite (attach_all_parts _ _ _ contents) by done.
  unfold with_. rewrite bind_extern. simpl. rewrite Hconnect.
  unfold set_trace. simpl. by rewrite <- !app_assoc.
Qed.

(** How [send] runs when every attachment is on disk and no SMTP call
    raises. *)
Lemma send_all_return self w contents v1 v2 v3 v4 v5 :
  let spec := es_spec self in
  let paths := lists w !!! attachments spec in
  let reads := ReadBytes <$> paths in
  let m := message_of spec (zip contents (path_name <$> paths)) in
  Forall2 (fun path f => disk w !! path = Some f) paths contents ->
  outside w (trace w ++ reads) (SmtpConnect (smtp_host spec) (smtp_port spec)) = Returns v1 ->
  outside w (trace w ++ reads ++ take 1 (session_calls spec m)) SmtpStarttls = Returns v2 ->
  outside w (trace w ++ reads ++ take 2 (session_calls spec m))
    (SmtpLogin (username spec) (password spec)) = Returns v3 ->
  outside w (trace w ++ reads ++ take 3 (session_calls spec m)) (SmtpSendMessage m)
    = Returns v4 ->
  outside w (trace w ++ reads ++ take 4 (session_calls spec m)) SmtpQuit = Returns v5 ->
  send self w =
    (Ok tt,
     World (disk w) (lists w) (trace w ++ reads ++ session_calls spec m)
           (logs w ++ [Build_log_record INFO "Sending email to %s" [LStrs (recipients spec)]])
           (outside w) (imported w)).
Proof.
  intros spec paths reads m Hall Hconnect Htls Hlogin Hsend Hquit.
  unfold session_calls in *. cbn [take] in Htls, Hlogin, Hsend, Hquit.
  rewrite (send_connected self w contents v1 Hall Hconnect).
  fold spec paths reads m. unfold try_finally.
  rewrite bind_extern. simpl. rewrite Htls.
  rewrite bind_extern. simpl. rewrite <- ?app_assoc. simpl. rewrite Hlogin.
  rewrite bind_extern. simpl. rewrite <- ?app_assoc. simpl. rewrite Hsend.
  unfold ret at 1. rewrite bind_extern. simpl. rewrite <- ?app_assoc. simpl.
  rewrite Hquit. unfold ret, set_trace. simpl. rewrite <- ?app_assoc. reflexivity.
Qed.






(** X11.  [send] only reads: whatever happens, the files on disk and the list
    objects are as before. *)
Theorem send_changes_nothing self w :
  disk (world_after (send self) w) = disk w
  /\ lists (world_after (send self) w) = lists w.
Proof.
  destruct (send_safe self w) as ((_ & Hdisk & Hlists & _) & _).
  split; [|done]. apply map_eq. intros path. apply Hdisk. tauto.
Qed.

(** ** What [populate] writes *)




(** X13.  When the payload has none of the keys of the mapping, [populate] still
    loads and saves the workbook, and the disk ends as it was. *)
Theorem populate_nothing_to_write self spec payload w wb sh :
  disk w !! cm_workbook_path spec = Some (WorkbookFile wb) ->
  wb !! cm_sheet_name spec = Some sh ->
  (forall key address, (key, address) ∈ mapping spec -> payload !! key = None) ->
  result_of (populate self spec payload) w = Ok (cm_workbook_path spec)
  /\ disk (world_after (populate self spec payload) w) = disk w
  /\ trace (world_after (populate self spec payload) w)
       = trace w ++ [LoadWorkbook (cm_workbook_path spec); SaveWorkbook (cm_workbook_path spec)].
Proof.
  intros Hfile Hsheet Hnone. unfold result_of, world_after.
  rewrite (populate_loaded self spec payload w wb sh Hfile Hsheet). simpl.
  split; [done|]. split; [|done].
  assert (written (mapping spec) payload sh = sh) as ->.
  { apply map_eq. intros address. apply written_frame. intros key. apply Hnone. }
  by rewrite (insert_id wb), (insert_id (disk w)).
Qed.

Lemma populate_nothing_to_write_witness :
  disk (world_after (populate MkExcelPopulator demo_cells ∅) all_fine_world) = demo_disk.
Proof.
  destruct (populate_nothing_to_write MkExcelPopulator demo_cells ∅ all_fine_world
              demo_workbook {[ "A1" := Scalar (DNum 100) ]}) as (_ & Hdisk & _).
  - reflexivity.
  - reflexivity.
  - intros key address _. apply lookup_empty.
  - exact Hdisk.
Defined.



(** ** Whole runs *)






(** *** Runs in which nothing fails *)






Lemma send_stage_imported spec w :
  imported w smtplib = true -> send_stage spec w = send {| es_spec := spec |} w.
Proof.
  intros Hsmtp. unfold send_stage, EmailSender_init, bind, require_module, ret.
  by rewrite Hsmtp.
Qed.






(** ** The example entry point *)


(** X18.  The example checks for its libraries before it does anything: when
    WindPy, openpyxl or pywin32 is missing it raises the [RuntimeError] of
    the first missing one, in that order, without a single call to the
    outside and without touching the disk. *)
Theorem example_fails_fast w :
  (imported w WindPy = false ->
     result_of run_workflow_example w
       = Raise (RuntimeError
           "WindPy is not available. Install WindPy and run this on a machine with Wind Financial Terminal.")
     /\ trace (world_after run_workflow_example w) = trace w
     /\ disk (world_after run_workflow_example w) = disk w)
  /\ (imported w WindPy = true -> imported w openpyxl = false ->
        result_of run_workflow_example w
          = Raise (RuntimeError "openpyxl is required for Excel writing.")
        /\ trace (world_after run_workflow_example w) = trace w
        /\ disk (world_after run_workflow_example w) = disk w)
  /\ (imported w WindPy = true -> imported w openpyxl = true ->
      imported w win32com = false ->
        result_of run_workflow_example w
          = Raise (RuntimeError "pywin32 is required for Excel screenshots.")
        /\ trace (world_after run_workflow_example w) = trace w
        /\ disk (world_after run_workflow_example w) = disk w).
Proof.
  unfold result_of, world_after, run_workflow_example, new_list,
    WindDataFetcher_init, ExcelPopulator_init, ExcelScreenshotter_init.
  split; [|split].
  - intros Hwind. unfold bind, require_module. cbn [imported set_lists]. by rewrite Hwind.
  - intros Hwind Hxl. unfold bind, require_module, ret. cbn [imported set_lists].
    rewrite Hwind. cbn [imported set_lists]. by rewrite Hxl.
  - intros Hwind Hxl Hcom. unfold bind, require_module, ret. cbn [imported set_lists].
    rewrite Hwind. cbn [imported set_lists]. rewrite Hxl. cbn [imported set_lists].
    by rewrite Hcom.
Qed.

Lemma example_fails_fast_witness :
  result_of run_workflow_example no_win32com_world
    = Raise (RuntimeError "pywin32 is required for Excel screenshots.")
  /\ trace (world_after run_workflow_example no_win32com_world) = [].
Proof.
  destruct (example_fails_fast no_win32com_world) as (_ & _ & Hcom).
  destruct Hcom as (Hres & Htrace & _); [reflexivity..|].
  split; [exact Hres|exact Htrace].
Defined.



(** ** The demo script *)



(** X21.  [send_via_gmail] mails exactly the two files it is given.  It puts
    them in a list of its own, so in a world where both are on disk and
    nothing fails it reads the two files, in order, opens one session to
    smtp.gmail.com:587 and hands over a message whose two parts are their
    contents; the list objects that existed before and the disk are left
    as they were. *)
Theorem send_via_gmail_sends_both k excel shot w r f1 f2 :
  outside w = cooperative r ->
  imported w smtplib = true ->
  disk w !! excel = Some f1 ->
  disk w !! shot = Some f2 ->
  let spec := gmail_spec k (fresh (dom (lists w))) in
  let m := message_of spec [(f1, path_name excel); (f2, path_name shot)] in
  result_of (send_via_gmail k excel shot) w = Ok tt
  /\ trace (world_after (send_via_gmail k excel shot) w)
       = trace w ++ [ReadBytes excel; ReadBytes shot] ++ session_calls spec m
  /\ smtp_host spec = "smtp.gmail.com" /\ smtp_port spec = 587%Z
  /\ disk (world_after (send_via_gmail k excel shot) w) = disk w
  /\ (forall l, l ∈ dom (lists w) ->
        lists (world_after (send_via_gmail k excel shot) w) !! l = lists w !! l).
Proof.
  intros Henv Hsmtp Hf1 Hf2 spec m.
  unfold result_of, world_after, send_via_gmail.
  unfold bind at 1 3 5 7. unfold new_list. cbn zeta.
  fold (send_stage (gmail_spec k (fresh (dom (lists w))))). fold spec.
  rewrite send_stage_imported by done.
  rewrite (send_all_return _ _ [f1; f2] NoValue NoValue NoValue NoValue NoValue).
  - cbn [es_spec disk lists trace logs outside imported fst snd set_lists].
    rewrite lookup_total_insert_eq. cbn [fmap list_fmap zip zip_with].
    split; [done|]. split; [done|]. split; [done|]. split; [done|]. split; [done|].
    intros l Hl. rewrite lookup_insert_ne; [done|].
    intros <-. by apply (is_fresh (dom (lists w))).
  - cbn [es_spec disk lists set_lists]. rewrite lookup_total_insert_eq.
    constructor; [done|constructor; [done|constructor]].
  - cbn [outside set_lists]. by rewrite Henv.
  - cbn [outside set_lists]. by rewrite Henv.
  - cbn [outside set_lists]. by rewrite Henv.
  - cbn [outside set_lists]. by rewrite Henv.
  - cbn [outside set_lists]. by rewrite Henv.
Qed.

Lemma send_via_gmail_sends_both_witness :
  result_of (send_via_gmail demo_k "demo_report.xlsx" "demo_report.png") gmail_world = Ok tt
  /\ lists (world_after (send_via_gmail demo_k "demo_report.xlsx" "demo_report.png")
              gmail_world) !! 0 = Some ["earlier.txt"].
Proof.
  destruct (send_via_gmail_sends_both demo_k "demo_report.xlsx" "demo_report.png" gmail_world
              full_answer (WorkbookFile demo_workbook)
              (PictureFile "demo_report.xlsx" "Sheet1" "A1:B5"))
    as (Hres & _ & _ & _ & _ & Hlists); [reflexivity..|].
  split; [exact Hres|]. rewrite (Hlists 0); [reflexivity|].
  apply elem_of_dom. by eexists.
Defined.

(** ** Evaluations of the properties without hypotheses *)

Lemma fetch_one_request_witness :
  trace (world_after (fetch MkWindDataFetcher two_fields) refused_world)
    = [wsd_call two_fields].
Proof.
  destruct (fetch_one_request MkWindDataFetcher two_fields refused_world) as (Htrace & _).
  exact Htrace.
Defined.


Lemma capture_never_saves_witness :
  Forall (fun c => match c with ComClose k => k = 0%Z | _ => True end)
    (trace (world_after (capture MkExcelScreenshotter demo_shot) all_fine_world)).
Proof.
  destruct (capture_never_saves MkExcelScreenshotter demo_shot all_fine_world)
    as (t & Htrace & Hclose & _).
  rewrite Htrace. apply Forall_forall. intros c Hin.
  destruct c; try exact I. apply Hclose. exact Hin.
Defined.

Lemma send_changes_nothing_witness :
  disk (world_after (send {| es_spec := demo_mail |}) login_rejected_world) = demo_disk.
Proof.
  destruct (send_changes_nothing {| es_spec := demo_mail |} login_rejected_world)
    as [Hdisk _].
  exact Hdisk.
Defined.
